(** * FlatCAM, [appGUI/preferences/__init__.py]: load-time bootstrap

    The module body runs once, at import:

      - line 8      [fcTranslate.apply_language('strings')]
      - lines 9-10  [if '_' not in builtins.__dict__: _ = gettext.gettext]
      - line 12     [settings = QSettings("Open Source", "FlatCAM")]
      - lines 13-16 [if settings.contains("machinist"): ... else: ...]

    The statements act on three pieces of state: the interpreter's
    [builtins.__dict__], the module's own namespace, and the persistent
    settings storage of Qt.  They are embedded as computations of a small
    state-and-exception monad over a record holding the three. *)

From Stdlib Require Import ZArith String List.
From stdpp Require Import base option gmap strings.

Local Open Scope string_scope.

(** ** Python values and exceptions *)

Inductive Exn : Type :=
| TypeError
| OtherError (name : string).

Inductive Result (A : Type) : Type :=
| Ok (a : A)
| Raise (e : Exn).

Arguments Ok {A} a.
Arguments Raise {A} e.

(** A message catalog: original text to translated text. *)
Abbreviation Catalog := (gmap string string).

(** The values that can sit under a name of interest here.  [PyGettext] is
    the function object [gettext.gettext]; [PyTranslation c] is the bound
    method [gettext] of a translation object that holds the catalog [c];
    [PyFun f] is any other callable of one string argument; [PySettings] is
    a [QSettings] object, identified by its scope. *)
#[warnings="-register-all"] Inductive PyVal : Type :=
| PyNone
| PyInt (z : Z)
| PyStr (s : string)
| PyGettext
| PyTranslation (c : Catalog)
| PyFun (f : string -> Result PyVal)
| PySettings (org app : string).

(** ** The gettext environment

    What the process finds on disk for its current locale: for each text
    domain, the catalog (if any), and the domain that the module-level
    functions of [gettext] currently use (["messages"] unless the host
    changed it with [gettext.textdomain]). *)
Record Env : Type := mkEnv {
  text_domain : string;
  catalog_for : string -> option Catalog
}.

(** [GNUTranslations.gettext]: the catalog's entry, else the message. *)
Definition translation_gettext (c : Catalog) (message : string) : string :=
  default message (c !! message).

(** [gettext.gettext]: look the message up in the catalog of the current
    text domain; when no catalog is found ([OSError] inside the library,
    caught there) the message comes back as it is. *)
Definition gettext_gettext (env : Env) (message : string) : string :=
  match catalog_for env (text_domain env) with
  | Some c => translation_gettext c message
  | None => message
  end.

(** Calling a value with one string argument. *)
Definition py_call (env : Env) (v : PyVal) (arg : string) : Result PyVal :=
  match v with
  | PyGettext => Ok (PyStr (gettext_gettext env arg))
  | PyTranslation c => Ok (PyStr (translation_gettext c arg))
  | PyFun f => f arg
  | PyNone | PyInt _ | PyStr _ | PySettings _ _ => Raise TypeError
  end.

Definition callable (v : PyVal) : bool :=
  match v with
  | PyGettext | PyTranslation _ | PyFun _ => true
  | PyNone | PyInt _ | PyStr _ | PySettings _ _ => false
  end.

(** A translator: callable on every string, and the result is a string. *)
Definition is_translator (env : Env) (v : PyVal) : Prop :=
  forall s, exists s', py_call env v s = Ok (PyStr s').

(** An identity translator gives every string back unchanged. *)
Definition is_identity (env : Env) (v : PyVal) : Prop :=
  forall s, py_call env v s = Ok (PyStr s).

(** ** The Qt binding

    [QSettings.value(key, type=int)] hands the stored [QVariant] to the
    binding's conversion.  Neither the variant type nor the conversion is
    part of this repository, so both are taken as given: [to_int] is the
    conversion of a stored value (it may raise), [missing_int] is what the
    typed read yields for a key that is not stored. *)
Record QtBinding : Type := mkQt {
  QVariant : Type;
  to_int : QVariant -> Result Z;
  missing_int : Result Z
}.

(** The operations a [QSettings] object was asked to perform. *)
Inductive QCall : Type :=
| CallContains (key : string)
| CallValue (key : string) (stored : bool).

Definition has_key {V : Type} (key : string) (m : gmap string V) : bool :=
  match m !! key with
  | Some _ => true
  | None => false
  end.

Section Load.

Variable qt : QtBinding.

(** ** The state the module body acts on *)
Record World : Type := mkWorld {
  builtins : gmap string PyVal;
  globals : gmap string PyVal;
  storage : gmap (string * string) (gmap string (QVariant qt));
  calls : list QCall
}.

(** State and exceptions: a raised exception keeps the state reached. *)
Definition M (A : Type) : Type := World -> Result A * World.

#[export] Instance M_ret : MRet M := fun A a w => (Ok a, w).

#[export] Instance M_bind : MBind M := fun A B k m w =>
  match m w with
  | (Ok a, w') => k a w'
  | (Raise e, w') => (Raise e, w')
  end.

Definition run {A : Type} (m : M A) (w : World) : World := snd (m w).
Definition outcome {A : Type} (m : M A) (w : World) : Result A := fst (m w).

(** Name lookup from module level: the module's namespace, then builtins. *)
Definition resolve (name : string) (w : World) : option PyVal :=
  match globals w !! name with
  | Some v => Some v
  | None => builtins w !! name
  end.

(** [name in builtins.__dict__] *)
Definition builtins_has (name : string) : M bool :=
  fun w => (Ok (has_key name (builtins w)), w).

(** [name = v] at module level *)
Definition assign_global (name : string) (v : PyVal) : M unit :=
  fun w => (Ok tt, mkWorld (builtins w) (<[name := v]> (globals w))
                           (storage w) (calls w)).

(** [install()] of a translation object: [builtins.__dict__['_'] = v] *)
Definition install (v : PyVal) : M unit :=
  fun w => (Ok tt, mkWorld (<["_" := v]> (builtins w)) (globals w)
                           (storage w) (calls w)).

(** ** QSettings

    The class belongs to Qt, not to this repository.  It is modelled as Qt
    documents it: an object is a view on the persistent data stored under
    an (organization, application) pair; constructing one reads and writes
    nothing; [contains] and [value] are reads.  Each read is appended to
    [calls], which records what the module asked of the store. *)

(** The data stored under a scope; a scope never written to is empty. *)
Definition scope_data (scope : string * string) (w : World)
  : gmap string (QVariant qt) :=
  default ∅ (storage w !! scope).

Definition log (c : QCall) (w : World) : World :=
  mkWorld (builtins w) (globals w) (storage w) (calls w ++ [c]).

(** [QSettings(organization, application)] *)
Definition QSettings (organization application : string)
  : M (string * string) :=
  mret (organization, application).

(** [settings.contains(key)] *)
Definition contains (settings : string * string) (key : string) : M bool :=
  fun w => (Ok (has_key key (scope_data settings w)),
            log (CallContains key) w).

(** [settings.value(key, type=int)] *)
Definition value (settings : string * string) (key : string) : M Z :=
  fun w =>
    match scope_data settings w !! key with
    | Some v => (to_int qt v, log (CallValue key true) w)
    | None => (missing_int qt, log (CallValue key false) w)
    end.

(** ** Line 8 *)

(** Modelled from the spec: [fcTranslate.apply_language] lives in the
    module [appTranslation], which is not among the sources.  The spec has
    it select and activate the catalog of the given name for the current
    process locale, changing process-wide text lookup, with no return
    value; when no catalog is found it falls back silently and raises
    nothing.  Activation registers the catalog's translator under the
    process-wide name ['_']; without a catalog nothing is registered, which
    is the case the guard of lines 9-10 is there for. *)
Definition apply_language (env : Env) (domain : string) : M unit :=
  match catalog_for env domain with
  | Some c => install (PyTranslation c)
  | None => mret tt
  end.

(** ** Lines 9-10 *)
Definition translator_guard : M unit :=
  registered ← builtins_has "_";
  if negb registered then assign_global "_" PyGettext else mret tt.

(** Lines 8-10 together. *)
Definition bootstrap (env : Env) : M unit :=
  apply_language env "strings";; translator_guard.

(** ** Line 12 *)
Definition open_settings : M (string * string) :=
  settings ← QSettings "Open Source" "FlatCAM";
  assign_global "settings" (PySettings (fst settings) (snd settings));;
  mret settings.

(** ** Lines 13-16 *)
Definition read_machinist (settings : string * string) : M unit :=
  present ← contains settings "machinist";
  if (present : bool) then
    n ← value settings "machinist";
    assign_global "machinist_setting" (PyInt n)
  else
    assign_global "machinist_setting" (PyInt 0).

(** Lines 12-16 together. *)
Definition settings_accessor : M unit :=
  settings ← open_settings;
  read_machinist settings.

(** ** The module body, lines 8-16 *)
Definition module_load (env : Env) : M unit :=
  bootstrap env;; settings_accessor.

(** The data of the scope this module reads. *)
Definition flatcam_data (w : World) : gmap string (QVariant qt) :=
  scope_data ("Open Source", "FlatCAM") w.

(** [machinist_setting] as the module's namespace holds it. *)
Definition machinist_setting (w : World) : option PyVal :=
  globals w !! "machinist_setting".

End Load.

Arguments mkWorld {qt} _ _ _ _.
Arguments builtins {qt} _.
Arguments globals {qt} _.
Arguments storage {qt} _.
Arguments calls {qt} _.
Arguments run {qt} {A} _ _.
Arguments outcome {qt} {A} _ _.
Arguments resolve {qt} _ _.
Arguments scope_data {qt} _ _.
Arguments flatcam_data {qt} _.
Arguments machinist_setting {qt} _.

(** ** Sample inputs *)

(** A binding whose store holds integers only. *)
Definition int_store : QtBinding := mkQt Z Ok (Ok 0%Z).

Definition spanish : Catalog := {["Open" := "Abrir"]}.

(** No catalog at all for the current locale. *)
Definition no_catalogs : Env := mkEnv "messages" (fun _ => None).


(** A catalog for the text domain in use by [gettext.gettext] only. *)
Definition messages_catalog : Env :=
  mkEnv "messages"
        (fun d => if String.eqb d "messages" then Some spanish else None).

(** First run: nothing registered, nothing stored. *)
Definition fresh_world : World int_store := mkWorld ∅ ∅ ∅ [].

(** An interactive interpreter, where [builtins._] holds the value of the
    last expression evaluated. *)
Definition repl_world : World int_store :=
  mkWorld {["_" := PyInt 3]} ∅ ∅ [].

(** A translator registered by the host application beforehand. *)
Definition host_world : World int_store :=
  mkWorld {["_" := PyTranslation spanish]} ∅ ∅ [].

(** A store in which machinist mode was switched on. *)
Definition machinist_world : World int_store :=
  mkWorld ∅ ∅ {[("Open Source", "FlatCAM") := {["machinist" := 1%Z]}]} [].

(** A store that holds another preference of the application, and data of
    another application, but no "machinist" key. *)
Definition other_keys_world : World int_store :=
  mkWorld ∅ ∅
          {[("Open Source", "FlatCAM") := {["layout" := 2%Z]};
            ("Open Source", "Other") := {["machinist" := 7%Z]}]}
          [CallContains "layout"].

(** ** Lines 9-16: the module body after the call into [appTranslation] *)
Definition module_tail (qt : QtBinding) : M qt unit :=
  translator_guard qt;; settings_accessor qt.

(** A binding whose store holds items that either convert to an integer or
    do not convert at all. *)
Definition flag_store : QtBinding :=
  mkQt (option Z)
       (fun x => match x with Some n => Ok n | None => Raise TypeError end)
       (Ok 0%Z).

(** A module namespace that already holds a non-callable ['_'] (brought
    in by a star import), with nothing registered in builtins. *)
Definition shadow_world : World int_store :=
  mkWorld ∅ {["_" := PyInt 3]} ∅ [].

(** A store whose "machinist" item does not convert, met by a module
    namespace that holds an earlier [machinist_setting]. *)
Definition broken_world : World flag_store :=
  mkWorld ∅ {["machinist_setting" := PyInt 5]}
          {[("Open Source", "FlatCAM") := {["machinist" := None]}]} [].

(** * Properties *)

Section Theory.

Variable qt : QtBinding.

Implicit Types (w : World qt) (env : Env) (v : PyVal).

(** ** How each statement acts on the state *)

Lemma has_key_true {V : Type} (key : string) (m : gmap string V) :
  has_key key m = true <-> is_Some (m !! key).
Proof.
  unfold has_key. destruct (m !! key) as [x|]; split; intros H.
  - by exists x.
  - reflexivity.
  - discriminate.
  - by destruct H.
Qed.

Lemma has_key_false {V : Type} (key : string) (m : gmap string V) :
  has_key key m = false <-> m !! key = None.
Proof.
  unfold has_key. destruct (m !! key); split; intros H; congruence.
Qed.

Lemma bind_ok {A B : Type} (m : M qt A) (k : A -> M qt B) w a w' :
  m w = (Ok a, w') -> (m ≫= k) w = k a w'.
Proof. intros H. unfold mbind, M_bind. by rewrite H. Qed.

Lemma bind_raise {A B : Type} (m : M qt A) (k : A -> M qt B) w e w' :
  m w = (Raise e, w') -> (m ≫= k) w = (Raise e, w').
Proof. intros H. unfold mbind, M_bind. by rewrite H. Qed.

Lemma apply_language_found env domain c w :
  catalog_for env domain = Some c ->
  apply_language qt env domain w =
  (Ok tt, mkWorld (<["_" := PyTranslation c]> (builtins w)) (globals w)
                  (storage w) (calls w)).
Proof. intros H. unfold apply_language. by rewrite H. Qed.

Lemma apply_language_not_found env domain w :
  catalog_for env domain = None ->
  apply_language qt env domain w = (Ok tt, w).
Proof. intros H. unfold apply_language. by rewrite H. Qed.

Lemma guard_registered w :
  has_key "_" (builtins w) = true ->
  translator_guard qt w = (Ok tt, w).
Proof.
  intros H. unfold translator_guard.
  erewrite bind_ok; [|reflexivity]. by rewrite H.
Qed.

Lemma guard_unregistered w :
  has_key "_" (builtins w) = false ->
  translator_guard qt w =
  (Ok tt, mkWorld (builtins w) (<["_" := PyGettext]> (globals w))
                  (storage w) (calls w)).
Proof.
  intros H. unfold translator_guard.
  erewrite bind_ok; [|reflexivity]. by rewrite H.
Qed.

Lemma guard_outcome w : outcome (translator_guard qt) w = Ok tt.
Proof.
  unfold outcome. destruct (has_key "_" (builtins w)) eqn:H.
  - by rewrite guard_registered.
  - by rewrite guard_unregistered.
Qed.

Lemma guard_builtins w :
  builtins (run (translator_guard qt) w) = builtins w.
Proof.
  unfold run. destruct (has_key "_" (builtins w)) eqn:H.
  - by rewrite guard_registered.
  - by rewrite guard_unregistered.
Qed.

Lemma guard_storage w :
  storage (run (translator_guard qt) w) = storage w
  /\ calls (run (translator_guard qt) w) = calls w.
Proof.
  unfold run. destruct (has_key "_" (builtins w)) eqn:H.
  - by rewrite guard_registered.
  - by rewrite guard_unregistered.
Qed.

Lemma apply_language_outcome env domain w :
  outcome (apply_language qt env domain) w = Ok tt.
Proof.
  unfold outcome, apply_language. by destruct (catalog_for env domain).
Qed.

Lemma apply_language_frame env domain w :
  globals (run (apply_language qt env domain) w) = globals w
  /\ storage (run (apply_language qt env domain) w) = storage w
  /\ calls (run (apply_language qt env domain) w) = calls w.
Proof.
  unfold run, apply_language. by destruct (catalog_for env domain).
Qed.

Lemma bootstrap_unfold env w :
  bootstrap qt env w =
  translator_guard qt (run (apply_language qt env "strings") w).
Proof.
  unfold bootstrap.
  erewrite bind_ok; [reflexivity|].
  unfold run, apply_language. by destruct (catalog_for env "strings").
Qed.

Lemma bootstrap_outcome env w : outcome (bootstrap qt env) w = Ok tt.
Proof.
  unfold outcome. rewrite bootstrap_unfold. apply guard_outcome.
Qed.

Lemma bootstrap_frame env w :
  storage (run (bootstrap qt env) w) = storage w
  /\ calls (run (bootstrap qt env) w) = calls w.
Proof.
  destruct (guard_storage (run (apply_language qt env "strings") w))
    as [Hs Hc].
  destruct (apply_language_frame env "strings" w) as (_ & Hs' & Hc').
  unfold run in *. rewrite bootstrap_unfold. unfold run. split; congruence.
Qed.

(** Lines 12-16, case by case. *)
Lemma accessor_unfold w :
  settings_accessor qt w =
  let g := <["settings" := PySettings "Open Source" "FlatCAM"]> (globals w) in
  match flatcam_data w !! "machinist" with
  | Some x =>
      let tr := (calls w ++ [CallContains "machinist";
                             CallValue "machinist" true])%list in
      match to_int qt x with
      | Ok n => (Ok tt, mkWorld (builtins w)
                                (<["machinist_setting" := PyInt n]> g)
                                (storage w) tr)
      | Raise e => (Raise e, mkWorld (builtins w) g (storage w) tr)
      end
  | None =>
      (Ok tt, mkWorld (builtins w) (<["machinist_setting" := PyInt 0]> g)
                      (storage w) (calls w ++ [CallContains "machinist"])%list)
  end.
Proof.
  unfold settings_accessor, open_settings, read_machinist, flatcam_data.
  unfold mbind, M_bind, QSettings, mret, M_ret, contains, value,
    assign_global, log, scope_data, has_key. simpl.
  destruct (default ∅ (storage w !! ("Open Source", "FlatCAM"))
              !! "machinist") as [x|] eqn:Hx; simpl.
  - rewrite Hx. rewrite <- app_assoc. simpl. by destruct (to_int qt x).
  - reflexivity.
Qed.

Lemma load_unfold env w :
  module_load qt env w = settings_accessor qt (run (bootstrap qt env) w).
Proof.
  unfold module_load.
  erewrite bind_ok; [reflexivity|].
  pose proof (bootstrap_outcome env w) as H. unfold outcome, run in *.
  destruct (bootstrap qt env w) as [r w1]. simpl in *. by rewrite H.
Qed.

Lemma bootstrap_data env w :
  flatcam_data (run (bootstrap qt env) w) = flatcam_data w.
Proof.
  unfold flatcam_data, scope_data.
  by destruct (bootstrap_frame env w) as [-> _].
Qed.

(** The namespaces after lines 8-10. *)
Lemma bootstrap_namespaces env w :
  builtins (run (bootstrap qt env) w) =
    match catalog_for env "strings" with
    | Some c => <["_" := PyTranslation c]> (builtins w)
    | None => builtins w
    end
  /\ globals (run (bootstrap qt env) w) =
    match catalog_for env "strings" with
    | Some _ => globals w
    | None => if has_key "_" (builtins w) then globals w
              else <["_" := PyGettext]> (globals w)
    end.
Proof.
  unfold run. rewrite bootstrap_unfold. unfold run.
  destruct (catalog_for env "strings") as [c|] eqn:Hc.
  - rewrite (apply_language_found _ _ c) by done. simpl.
    rewrite guard_registered; [done|].
    apply has_key_true. simpl. rewrite lookup_insert_eq. by eexists.
  - rewrite apply_language_not_found by done. simpl.
    destruct (has_key "_" (builtins w)) eqn:Hk.
    + by rewrite guard_registered.
    + by rewrite guard_unregistered.
Qed.

Lemma gettext_is_translator env : is_translator env PyGettext.
Proof. intros s. by eexists. Qed.

Lemma translation_is_translator env c : is_translator env (PyTranslation c).
Proof. intros s. by eexists. Qed.

Lemma gettext_identity env :
  catalog_for env (text_domain env) = None -> is_identity env PyGettext.
Proof. intros H s. simpl. unfold gettext_gettext. by rewrite H. Qed.

Lemma not_callable_raises env v s :
  callable v = false -> py_call env v s = Raise TypeError.
Proof. by destruct v. Qed.

(** ** The settings accessor *)

(** C1: after module load, [machinist_setting] is the stored value of key
    "machinist" coerced to integer when the key is stored (the load raises
    what the coercion raises), and 0 when the key is not stored. *)
Theorem machinist_setting_after_load env w :
  match flatcam_data w !! "machinist" with
  | Some x =>
      match to_int qt x with
      | Ok n =>
          outcome (module_load qt env) w = Ok tt
          /\ machinist_setting (run (module_load qt env) w) = Some (PyInt n)
      | Raise e => outcome (module_load qt env) w = Raise e
      end
  | None =>
      outcome (module_load qt env) w = Ok tt
      /\ machinist_setting (run (module_load qt env) w) = Some (PyInt 0)
  end.
Proof.
  unfold outcome, run. rewrite load_unfold, accessor_unfold, bootstrap_data.
  destruct (flatcam_data w !! "machinist") as [x|]; simpl.
  - destruct (to_int qt x) as [n|e]; simpl; [|done].
    split; [done|]. unfold machinist_setting. simpl. apply lookup_insert_eq.
  - split; [done|]. unfold machinist_setting. simpl. apply lookup_insert_eq.
Qed.

(** C2: when the key "machinist" is not stored, the read raises nothing,
    yields the default 0, and leaves the store as it was. *)
Theorem read_missing_key (settings : string * string) w :
  scope_data settings w !! "machinist" = None ->
  outcome (read_machinist qt settings) w = Ok tt
  /\ machinist_setting (run (read_machinist qt settings) w) = Some (PyInt 0)
  /\ storage (run (read_machinist qt settings) w) = storage w.
Proof.
  intros H. unfold outcome, run, read_machinist.
  erewrite bind_ok; [|reflexivity].
  apply has_key_false in H. rewrite H. simpl.
  repeat split. unfold machinist_setting. simpl. apply lookup_insert_eq.
Qed.

(** C5: opening the store with the pair ("Open Source", "FlatCAM") succeeds
    in every state and leaves the stored data as it was; with nothing stored
    under the pair the open still succeeds and the data seen is empty;
    a second open returns the same scope and sees the same data. *)
Theorem open_settings_keeps_data w :
  outcome (open_settings qt) w = Ok ("Open Source", "FlatCAM")
  /\ storage (run (open_settings qt) w) = storage w
  /\ (storage w !! ("Open Source", "FlatCAM") = None ->
      flatcam_data (run (open_settings qt) w) = ∅)
  /\ outcome (open_settings qt) (run (open_settings qt) w)
     = outcome (open_settings qt) w
  /\ flatcam_data (run (open_settings qt) (run (open_settings qt) w))
     = flatcam_data w.
Proof.
  repeat split.
  intros H. unfold flatcam_data, scope_data. simpl. by rewrite H.
Qed.

(** C9: during module load the typed read [value] is performed only for a
    key the store holds, after [contains] answered for it; when "machinist"
    is not stored no [value] call happens at all and the 0 comes from the
    else branch. *)
Theorem value_read_only_when_stored env w :
  exists new : list QCall,
    calls (run (module_load qt env) w) = (calls w ++ new)%list
    /\ (forall key stored, In (CallValue key stored) new ->
          stored = true /\ key = "machinist"
          /\ is_Some (flatcam_data w !! key)
          /\ new = [CallContains key; CallValue key true])
    /\ (flatcam_data w !! "machinist" = None ->
          new = [CallContains "machinist"]
          /\ outcome (module_load qt env) w = Ok tt
          /\ machinist_setting (run (module_load qt env) w)
             = Some (PyInt 0)).
Proof.
  unfold outcome, run. rewrite load_unfold, accessor_unfold, bootstrap_data.
  destruct (bootstrap_frame env w) as [_ Hc].
  destruct (flatcam_data w !! "machinist") as [x|] eqn:Hx; simpl.
  - exists [CallContains "machinist"; CallValue "machinist" true].
    split; [destruct (to_int qt x); simpl; by rewrite Hc|].
    split; [|done].
    intros key stored [Hin|[Hin|[]]]; [done|].
    injection Hin as <- <-. rewrite Hx. by eauto.
  - exists [CallContains "machinist"].
    split; [simpl; by rewrite Hc|].
    split.
    + intros key stored [Hin|[]]. done.
    + intros _. repeat split. unfold machinist_setting. simpl.
      apply lookup_insert_eq.
Qed.

(** ** The translator guard *)

(** C3: a translator already registered under ['_'] is left as it is (the
    guard changes nothing at all), the guard never writes to builtins, and
    a second run of the guard changes nothing the first run left. *)
Theorem guard_idempotent w :
  (forall f, builtins w !! "_" = Some f -> translator_guard qt w = (Ok tt, w))
  /\ builtins (run (translator_guard qt) w) = builtins w
  /\ translator_guard qt (run (translator_guard qt) w)
     = (Ok tt, run (translator_guard qt) w).
Proof.
  split; [|split].
  - intros f Hf. apply guard_registered, has_key_true. by exists f.
  - apply guard_builtins.
  - unfold run. destruct (has_key "_" (builtins w)) eqn:Hk.
    + rewrite (guard_registered w) by done. simpl.
      by apply guard_registered.
    + rewrite (guard_unregistered w) by done. simpl.
      rewrite guard_unregistered by done. simpl.
      by rewrite insert_insert_eq.
Qed.

(** C4, as the code has it: with no ['_'] in builtins the guard binds the
    module-level name ['_'] to [gettext.gettext] and leaves builtins alone;
    that function returns the entry of the catalog of the current text
    domain, and returns every string unchanged when that domain has no
    catalog. *)
Theorem guard_installs_gettext env w :
  builtins w !! "_" = None ->
  outcome (translator_guard qt) w = Ok tt
  /\ resolve "_" (run (translator_guard qt) w) = Some PyGettext
  /\ builtins (run (translator_guard qt) w) = builtins w
  /\ (forall s, py_call env PyGettext s = Ok (PyStr (gettext_gettext env s)))
  /\ (catalog_for env (text_domain env) = None -> is_identity env PyGettext).
Proof.
  intros H. apply has_key_false in H.
  unfold outcome, run. rewrite guard_unregistered by done. simpl.
  repeat split.
  - unfold resolve. simpl. by rewrite lookup_insert_eq.
  - apply gettext_identity.
Qed.

(** C6, as the code has it: when every value bound to ['_'] beforehand (in
    builtins or in the module) is a translator, the bootstrap raises
    nothing and afterwards ['_'] resolves to a translator, catalog or no
    catalog. *)
Theorem bootstrap_translator_exists env w :
  (forall v, builtins w !! "_" = Some v -> is_translator env v) ->
  (forall v, globals w !! "_" = Some v -> is_translator env v) ->
  outcome (bootstrap qt env) w = Ok tt
  /\ exists t, resolve "_" (run (bootstrap qt env) w) = Some t
              /\ is_translator env t.
Proof.
  intros Hb Hg. split; [apply bootstrap_outcome|].
  destruct (bootstrap_namespaces env w) as [Eb Eg].
  unfold resolve. rewrite Eb, Eg.
  destruct (catalog_for env "strings") as [c|].
  - destruct (globals w !! "_") as [v|] eqn:Hv.
    + exists v. split; [done|]. by apply Hg.
    + exists (PyTranslation c). rewrite lookup_insert_eq.
      split; [done|]. apply translation_is_translator.
  - unfold has_key. destruct (builtins w !! "_") as [b|] eqn:Hbv.
    + destruct (globals w !! "_") as [v|] eqn:Hv.
      * exists v. split; [done|]. by apply Hg.
      * exists b. split; [done|]. by apply Hb.
    + exists PyGettext. rewrite lookup_insert_eq.
      split; [done|]. apply gettext_is_translator.
Qed.


(** C8: the guard looks only at whether ['_'] is in builtins.  Whatever the
    value bound there, callable or not, the guard leaves the state as it
    is; with no catalog found the whole bootstrap does; and when that value
    is not callable and the module has no ['_'] of its own, ['_'] resolves
    to it afterwards and calling it raises [TypeError]. *)
Theorem guard_ignores_callability env w v :
  builtins w !! "_" = Some v ->
  translator_guard qt w = (Ok tt, w)
  /\ (catalog_for env "strings" = None -> bootstrap qt env w = (Ok tt, w))
  /\ (catalog_for env "strings" = None ->
      globals w !! "_" = None ->
      callable v = false ->
      resolve "_" (run (bootstrap qt env) w) = Some v
      /\ forall s, py_call env v s = Raise TypeError).
Proof.
  intros Hv.
  assert (Hk : has_key "_" (builtins w) = true)
    by (apply has_key_true; by exists v).
  assert (Hboot : catalog_for env "strings" = None ->
                  bootstrap qt env w = (Ok tt, w)).
  { intros Hc. rewrite bootstrap_unfold. unfold run.
    rewrite apply_language_not_found by done. simpl.
    by apply guard_registered. }
  split; [by apply guard_registered|]. split; [done|].
  intros Hc Hg Hn. unfold run. rewrite Hboot by done. simpl.
  split.
  - unfold resolve. by rewrite Hg.
  - intros s. by apply not_callable_raises.
Qed.

(** ** Module load as a whole *)


End Theory.

(** * The theorems at concrete inputs *)

Lemma read_missing_key_witness :
  scope_data ("Open Source", "FlatCAM") other_keys_world !! "machinist" = None
  /\ outcome (read_machinist int_store ("Open Source", "FlatCAM"))
             other_keys_world = Ok tt
  /\ machinist_setting
       (run (read_machinist int_store ("Open Source", "FlatCAM"))
            other_keys_world) = Some (PyInt 0)
  /\ storage (run (read_machinist int_store ("Open Source", "FlatCAM"))
                  other_keys_world) = storage other_keys_world.
Proof.
  split; [reflexivity|].
  apply (read_missing_key int_store ("Open Source", "FlatCAM")
                          other_keys_world).
  reflexivity.
Defined.

Lemma open_settings_keeps_data_witness :
  storage fresh_world !! ("Open Source", "FlatCAM") = None
  /\ flatcam_data (run (open_settings int_store) fresh_world) = ∅.
Proof.
  split; [reflexivity|].
  destruct (open_settings_keeps_data int_store fresh_world)
    as (_ & _ & H & _).
  apply H. reflexivity.
Defined.

Lemma value_read_only_when_stored_witness :
  flatcam_data fresh_world !! "machinist" = None
  /\ calls (run (module_load int_store no_catalogs) fresh_world)
     = [CallContains "machinist"]
  /\ machinist_setting (run (module_load int_store no_catalogs) fresh_world)
     = Some (PyInt 0).
Proof.
  split; [reflexivity|].
  destruct (value_read_only_when_stored int_store no_catalogs fresh_world)
    as (new & Hcalls & _ & Hnone).
  destruct (Hnone eq_refl) as (Hnew & _ & Hm).
  split; [|exact Hm].
  rewrite Hcalls, Hnew. reflexivity.
Defined.

Lemma guard_idempotent_witness :
  builtins host_world !! "_" = Some (PyTranslation spanish)
  /\ translator_guard int_store host_world = (Ok tt, host_world).
Proof.
  split; [reflexivity|].
  apply (proj1 (guard_idempotent int_store host_world)
               (PyTranslation spanish)).
  reflexivity.
Defined.

Lemma guard_installs_gettext_witness :
  builtins fresh_world !! "_" = None
  /\ catalog_for no_catalogs (text_domain no_catalogs) = None
  /\ resolve "_" (run (translator_guard int_store) fresh_world)
     = Some PyGettext
  /\ is_identity no_catalogs PyGettext.
Proof.
  split; [reflexivity|]. split; [reflexivity|].
  destruct (guard_installs_gettext int_store no_catalogs fresh_world eq_refl)
    as (_ & Hr & _ & _ & Hid).
  split; [exact Hr|]. apply Hid. reflexivity.
Defined.

Lemma bootstrap_translator_exists_witness :
  builtins host_world !! "_" = Some (PyTranslation spanish)
  /\ globals host_world !! "_" = None
  /\ outcome (bootstrap int_store no_catalogs) host_world = Ok tt
  /\ exists t,
       resolve "_" (run (bootstrap int_store no_catalogs) host_world) = Some t
       /\ is_translator no_catalogs t.
Proof.
  split; [reflexivity|]. split; [reflexivity|].
  apply (bootstrap_translator_exists int_store no_catalogs host_world).
  - intros v H. vm_compute in H. injection H as <-.
    intros s. eexists. reflexivity.
  - intros v H. vm_compute in H. discriminate H.
Defined.


Lemma guard_ignores_callability_witness :
  builtins repl_world !! "_" = Some (PyInt 3)
  /\ catalog_for no_catalogs "strings" = None
  /\ globals repl_world !! "_" = None
  /\ callable (PyInt 3) = false
  /\ translator_guard int_store repl_world = (Ok tt, repl_world)
  /\ resolve "_" (run (bootstrap int_store no_catalogs) repl_world)
     = Some (PyInt 3)
  /\ forall s, py_call no_catalogs (PyInt 3) s = Raise TypeError.
Proof.
  do 4 (split; [reflexivity|]).
  destruct (guard_ignores_callability int_store no_catalogs repl_world
                                      (PyInt 3) eq_refl)
    as (Hg & _ & Hc).
  split; [exact Hg|]. apply Hc; reflexivity.
Defined.

(** * Inputs on which a property stated more broadly fails *)

(** With nothing registered the guard installs [gettext.gettext]; where the
    current text domain has a catalog, that function translates. *)
Lemma guard_translator_not_identity :
  builtins fresh_world !! "_" = None
  /\ resolve "_" (run (translator_guard int_store) fresh_world)
     = Some PyGettext
  /\ py_call messages_catalog PyGettext "Open" = Ok (PyStr "Abrir")
  /\ ~ is_identity messages_catalog PyGettext.
Proof.
  do 3 (split; [reflexivity|]).
  intros H. specialize (H "Open"). vm_compute in H. discriminate H.
Qed.

(** With [builtins._] holding the integer 3 and no catalog found, the
    bootstrap completes and ['_'] still resolves to 3, which is not
    callable. *)
Lemma bootstrap_translator_not_callable :
  outcome (bootstrap int_store no_catalogs) repl_world = Ok tt
  /\ resolve "_" (run (bootstrap int_store no_catalogs) repl_world)
     = Some (PyInt 3)
  /\ py_call no_catalogs (PyInt 3) "Open" = Raise TypeError
  /\ ~ (exists t,
         resolve "_" (run (bootstrap int_store no_catalogs) repl_world)
         = Some t
         /\ is_translator no_catalogs t).
Proof.
  do 3 (split; [reflexivity|]).
  intros (t & Ht & Hcall). vm_compute in Ht. injection Ht as <-.
  destruct (Hcall "Open") as [s' Hs']. discriminate Hs'.
Qed.


(** The two settings scenarios: a fresh store, and a store in which
    "machinist" is 1. *)
Example machinist_fresh_store :
  machinist_setting (run (module_load int_store no_catalogs) fresh_world)
  = Some (PyInt 0).
Proof. reflexivity. Qed.

Example machinist_switched_on :
  machinist_setting (run (module_load int_store no_catalogs) machinist_world)
  = Some (PyInt 1).
Proof. reflexivity. Qed.

(** * Further properties of lines 9-16 *)

Section TailTheory.

Variable qt : QtBinding.

Implicit Types (w : World qt).

Lemma module_tail_unfold w :
  module_tail qt w = settings_accessor qt (run (translator_guard qt) w).
Proof.
  unfold module_tail. erewrite bind_ok; [reflexivity|].
  pose proof (guard_outcome qt w) as H. unfold outcome, run in *.
  destruct (translator_guard qt w) as [r w1]. simpl in *. by rewrite H.
Qed.

Lemma guard_globals w :
  globals (run (translator_guard qt) w) =
  if has_key "_" (builtins w) then globals w
  else <["_" := PyGettext]> (globals w).
Proof.
  unfold run. destruct (has_key "_" (builtins w)) eqn:H.
  - by rewrite guard_registered.
  - by rewrite guard_unregistered.
Qed.

(** The namespaces and the store after lines 12-16, in every outcome. *)
Lemma accessor_state w :
  builtins (run (settings_accessor qt) w) = builtins w
  /\ storage (run (settings_accessor qt) w) = storage w
  /\ globals (run (settings_accessor qt) w) =
     match outcome (settings_accessor qt) w with
     | Ok _ =>
         <["machinist_setting" :=
             PyInt (match flatcam_data w !! "machinist" with
                    | Some x => match to_int qt x with
                                | Ok n => n
                                | Raise _ => 0
                                end
                    | None => 0
                    end)]>
           (<["settings" := PySettings "Open Source" "FlatCAM"]> (globals w))
     | Raise _ =>
         <["settings" := PySettings "Open Source" "FlatCAM"]> (globals w)
     end.
Proof.
  unfold run, outcome. rewrite accessor_unfold.
  destruct (flatcam_data w !! "machinist") as [x|]; simpl; [|done].
  by destruct (to_int qt x).
Qed.

Lemma accessor_keeps_underscore w :
  globals (run (settings_accessor qt) w) !! "_" = globals w !! "_".
Proof.
  destruct (accessor_state w) as (_ & _ & ->).
  destruct (outcome (settings_accessor qt) w).
  - rewrite lookup_insert_ne by done. by rewrite lookup_insert_ne.
  - by rewrite lookup_insert_ne.
Qed.

(** X1: after the guard the name ['_'] resolves at module level, whatever
    the namespaces held before; the guard itself raises nothing. *)
Theorem guard_always_resolves w :
  outcome (translator_guard qt) w = Ok tt
  /\ is_Some (resolve "_" (run (translator_guard qt) w)).
Proof.
  split; [apply guard_outcome|].
  unfold resolve. rewrite guard_globals, guard_builtins.
  destruct (has_key "_" (builtins w)) eqn:Hk.
  - apply has_key_true in Hk. by destruct (globals w !! "_").
  - by rewrite lookup_insert_eq.
Qed.

(** X2: a ['_'] bound only at module level does not count as registered:
    with no ['_'] in builtins the guard replaces it by [gettext.gettext],
    and builtins still has no ['_'] afterwards. *)
Theorem guard_overwrites_module_binding w f :
  builtins w !! "_" = None ->
  globals w !! "_" = Some f ->
  resolve "_" w = Some f
  /\ resolve "_" (run (translator_guard qt) w) = Some PyGettext
  /\ builtins (run (translator_guard qt) w) !! "_" = None.
Proof.
  intros Hb Hg. split; [|split].
  - unfold resolve. by rewrite Hg.
  - unfold resolve. rewrite guard_globals.
    apply has_key_false in Hb. rewrite Hb. by rewrite lookup_insert_eq.
  - by rewrite guard_builtins.
Qed.

(** X3: lines 12-16 raise exactly when "machinist" is stored and its
    conversion to an integer raises, and then they raise that exception. *)
Theorem accessor_raises_iff w e :
  outcome (settings_accessor qt) w = Raise e
  <-> exists x, flatcam_data w !! "machinist" = Some x
                /\ to_int qt x = Raise e.
Proof.
  unfold outcome. rewrite accessor_unfold.
  destruct (flatcam_data w !! "machinist") as [x|]; simpl.
  - destruct (to_int qt x) as [n|e'] eqn:Hx; simpl; split.
    + discriminate.
    + intros (y & Hy & He). injection Hy as <-. congruence.
    + intros H. injection H as ->. by exists x.
    + intros (y & Hy & He). injection Hy as <-. congruence.
  - split; [discriminate|]. by intros (y & Hy & _).
Qed.

(** X4: when the conversion raises, [machinist_setting] keeps whatever
    binding it had, [settings] is bound all the same, and builtins and the
    store are as before. *)
Theorem accessor_failure_state w x e :
  flatcam_data w !! "machinist" = Some x ->
  to_int qt x = Raise e ->
  machinist_setting (run (settings_accessor qt) w) = machinist_setting w
  /\ globals (run (settings_accessor qt) w) !! "settings"
     = Some (PySettings "Open Source" "FlatCAM")
  /\ builtins (run (settings_accessor qt) w) = builtins w
  /\ storage (run (settings_accessor qt) w) = storage w.
Proof.
  intros Hx He. unfold run, machinist_setting.
  rewrite accessor_unfold, Hx. simpl. rewrite He. simpl.
  repeat split.
  - by rewrite lookup_insert_ne.
  - by rewrite lookup_insert_eq.
Qed.

(** X5: in every outcome lines 12-16 leave builtins and the store as they
    were, bind [settings] to the object for ("Open Source", "FlatCAM"),
    change no module-level name other than [settings] and
    [machinist_setting], and so leave the binding of ['_'] alone. *)
Theorem accessor_frame w :
  builtins (run (settings_accessor qt) w) = builtins w
  /\ storage (run (settings_accessor qt) w) = storage w
  /\ globals (run (settings_accessor qt) w) !! "settings"
     = Some (PySettings "Open Source" "FlatCAM")
  /\ (forall name, name <> "settings" -> name <> "machinist_setting" ->
      globals (run (settings_accessor qt) w) !! name = globals w !! name)
  /\ resolve "_" (run (settings_accessor qt) w) = resolve "_" w.
Proof.
  destruct (accessor_state w) as (Hb & Hs & Hg).
  assert (Hframe : forall name,
             name <> "settings" -> name <> "machinist_setting" ->
             globals (run (settings_accessor qt) w) !! name
             = globals w !! name).
  { intros name H1 H2. rewrite Hg.
    destruct (outcome (settings_accessor qt) w).
    - rewrite lookup_insert_ne by done. by rewrite lookup_insert_ne.
    - by rewrite lookup_insert_ne. }
  split; [done|]. split; [done|]. split; [|split; [done|]].
  - rewrite Hg. destruct (outcome (settings_accessor qt) w).
    + rewrite lookup_insert_ne by done. by rewrite lookup_insert_eq.
    + by rewrite lookup_insert_eq.
  - unfold resolve. rewrite Hframe by done. by rewrite Hb.
Qed.

(** Lines 12-16 change nothing in a state they have already produced. *)
Lemma accessor_settled w u :
  builtins u = builtins w ->
  storage u = storage w ->
  flatcam_data u = flatcam_data w ->
  (forall name, name <> "_" ->
     globals u !! name = globals (run (settings_accessor qt) w) !! name) ->
  outcome (settings_accessor qt) u = outcome (settings_accessor qt) w
  /\ builtins (run (settings_accessor qt) u) = builtins u
  /\ storage (run (settings_accessor qt) u) = storage u
  /\ globals (run (settings_accessor qt) u) = globals u.
Proof.
  intros Hb Hs Hd Hg.
  destruct (accessor_state u) as (Hbu & Hsu & Hgu).
  destruct (accessor_state w) as (_ & _ & Hgw).
  assert (Ho : outcome (settings_accessor qt) u
               = outcome (settings_accessor qt) w).
  { unfold outcome. rewrite !accessor_unfold, Hd.
    destruct (flatcam_data w !! "machinist") as [x|]; simpl; [|done].
    by destruct (to_int qt x). }
  split; [done|]. split; [done|]. split; [done|].
  rewrite Hgu, Ho, Hd.
  assert (Hset : globals u !! "settings"
                 = Some (PySettings "Open Source" "FlatCAM")).
  { rewrite Hg by done. rewrite Hgw.
    destruct (outcome (settings_accessor qt) w).
    - rewrite lookup_insert_ne by done. by rewrite lookup_insert_eq.
    - by rewrite lookup_insert_eq. }
  destruct (outcome (settings_accessor qt) w) eqn:Hw.
  - rewrite (insert_id (globals u) "settings") by done.
    apply insert_id. rewrite Hg by done. rewrite Hgw.
    by rewrite lookup_insert_eq.
  - by apply insert_id.
Qed.

(** X6: running lines 9-16 a second time (a reload of the module) gives
    the outcome of the first run and leaves builtins, the module's names
    and the store exactly as the first run left them. *)
Theorem module_tail_reload w :
  outcome (module_tail qt) (run (module_tail qt) w)
  = outcome (module_tail qt) w
  /\ builtins (run (module_tail qt) (run (module_tail qt) w))
     = builtins (run (module_tail qt) w)
  /\ globals (run (module_tail qt) (run (module_tail qt) w))
     = globals (run (module_tail qt) w)
  /\ storage (run (module_tail qt) (run (module_tail qt) w))
     = storage (run (module_tail qt) w).
Proof.
  set (g := run (translator_guard qt) w).
  assert (E1 : run (module_tail qt) w = run (settings_accessor qt) g).
  { unfold run. by rewrite module_tail_unfold. }
  assert (Eo : outcome (module_tail qt) w = outcome (settings_accessor qt) g).
  { unfold outcome. by rewrite module_tail_unfold. }
  set (w1 := run (module_tail qt) w) in *.
  set (g1 := run (translator_guard qt) w1).
  assert (E2 : run (module_tail qt) w1 = run (settings_accessor qt) g1).
  { unfold run. by rewrite module_tail_unfold. }
  assert (Eo2 : outcome (module_tail qt) w1
                = outcome (settings_accessor qt) g1).
  { unfold outcome. by rewrite module_tail_unfold. }
  destruct (accessor_state g) as (Hb & Hs & _).
  pose proof (accessor_keeps_underscore g) as Hn.
  rewrite <- E1 in Hb, Hs, Hn.
  destruct (guard_storage qt w1) as [Hgs _]. fold g1 in Hgs.
  pose proof (guard_builtins qt w1) as Hgb. fold g1 in Hgb.
  pose proof (guard_globals w1) as Hgg. fold g1 in Hgg.
  assert (Hund : has_key "_" (builtins w1) = false ->
                 globals w1 !! "_" = Some PyGettext).
  { intros Hk. rewrite Hn. unfold g. rewrite guard_globals.
    rewrite Hb in Hk. unfold g in Hk. rewrite guard_builtins in Hk.
    rewrite Hk. by rewrite lookup_insert_eq. }
  assert (Hg1 : globals g1 = globals w1).
  { rewrite Hgg. destruct (has_key "_" (builtins w1)) eqn:Hk; [done|].
    apply insert_id. by apply Hund. }
  destruct (accessor_settled g g1) as (Ho' & Hb' & Hs' & Hg').
  - by rewrite Hgb, Hb.
  - by rewrite Hgs, Hs.
  - unfold flatcam_data, scope_data. by rewrite Hgs, Hs.
  - intros name _. by rewrite Hg1, E1.
  - rewrite Eo2, Eo, E2. split; [done|].
    rewrite Hb', Hs', Hg'. by rewrite Hgb, Hgs, Hg1.
Qed.


End TailTheory.

Lemma guard_overwrites_module_binding_witness :
  builtins shadow_world !! "_" = None
  /\ globals shadow_world !! "_" = Some (PyInt 3)
  /\ resolve "_" (run (translator_guard int_store) shadow_world)
     = Some PyGettext.
Proof.
  do 2 (split; [reflexivity|]).
  destruct (guard_overwrites_module_binding int_store shadow_world (PyInt 3))
    as (_ & H & _); [reflexivity | reflexivity | exact H].
Defined.

Lemma accessor_raises_iff_witness :
  flatcam_data broken_world !! "machinist" = Some None
  /\ to_int flag_store None = Raise TypeError
  /\ outcome (settings_accessor flag_store) broken_world = Raise TypeError.
Proof.
  do 2 (split; [reflexivity|]).
  apply (proj2 (accessor_raises_iff flag_store broken_world TypeError)).
  exists None. split; reflexivity.
Defined.

Lemma accessor_failure_state_witness :
  flatcam_data broken_world !! "machinist" = Some None
  /\ to_int flag_store None = Raise TypeError
  /\ machinist_setting (run (settings_accessor flag_store) broken_world)
     = Some (PyInt 5)
  /\ globals (run (settings_accessor flag_store) broken_world) !! "settings"
     = Some (PySettings "Open Source" "FlatCAM").
Proof.
  do 2 (split; [reflexivity|]).
  destruct (accessor_failure_state flag_store broken_world None TypeError)
    as (Hm & Hs & _); [reflexivity | reflexivity |].
  split; [|exact Hs]. rewrite Hm. reflexivity.
Defined.

Lemma accessor_frame_witness :
  "_" <> "settings" /\ "_" <> "machinist_setting"
  /\ globals (run (settings_accessor int_store) shadow_world) !! "_"
     = Some (PyInt 3).
Proof.
  assert (H1 : "_" <> "settings") by discriminate.
  assert (H2 : "_" <> "machinist_setting") by discriminate.
  do 2 (split; [assumption|]).
  destruct (accessor_frame int_store shadow_world) as (_ & _ & _ & H & _).
  rewrite (H "_" H1 H2). reflexivity.
Defined.

